(** * PRPs/scripts/prp_runner.py: a shallow embedding and its properties

    The script resolves a PRP file from two optional arguments, reads it,
    prepends [META_HEADER] and prints the result, either bare (headless) or
    between two banners (interactive).

    Conventions of the embedding.
    - A Python [str] is a [string] holding the UTF-8 encoding of the text, so
      that the bytes of a file and the text decoded from it live in one type
      and [read_text] is a validity check followed by newline translation.
    - [pathlib.Path] is the POSIX flavour: a root ([""], ["/"] or ["//"]) and
      the list of components that remain once empty and ["."] segments are
      dropped.
    - Effects are threaded through a [world]: what was written to standard
      output and to the error stream, and the list of file-system calls made.
      An exception keeps the world reached so far, as in Python.
    - [print], [run_cursor_model], [main] and [run_script] describe a run
      whose writes to standard output all go through; [print_on],
      [run_cursor_model_on], [main_on] and [run_script_on] are the same
      code on a [console] that can refuse a write, and agree with them
      when it refuses none ([run_script_on_open]).
    - [main] starts from the [Namespace] that [parser.parse_args()] returns. *)

From Stdlib Require Import String Ascii List Bool NArith ZArith.
Import ListNotations.
Open Scope string_scope.

(** ** Characters and strings *)

Definition LF : ascii := Ascii.ascii_of_nat 10.
Definition CR : ascii := Ascii.ascii_of_nat 13.
Definition SLASH : ascii := "/"%char.

Definition nl : string := String LF "".

(** [sep.join(l)] *)
Fixpoint join (sep : string) (l : list string) : string :=
  match l with
  | [] => ""
  | [x] => x
  | x :: rest => x ++ sep ++ join sep rest
  end.

(** [s.split("/")] *)
Fixpoint split_slash (s : string) : list string :=
  match s with
  | "" => [""]
  | String c s' =>
      if Ascii.eqb c SLASH then "" :: split_slash s'
      else match split_slash s' with
           | [] => [String c ""]
           | h :: t => String c h :: t
           end
  end.

(** [s.startswith("/")] and [s.endswith("/")] *)
Definition startswith_slash (s : string) : bool :=
  match s with
  | String c _ => Ascii.eqb c SLASH
  | "" => false
  end.

Fixpoint endswith_slash (s : string) : bool :=
  match s with
  | "" => false
  | String c "" => Ascii.eqb c SLASH
  | String _ s' => endswith_slash s'
  end.

(** ["/" not in s] *)
Fixpoint no_slash (s : string) : bool :=
  match s with
  | "" => true
  | String c s' => negb (Ascii.eqb c SLASH) && no_slash s'
  end.

(** [needle in s] *)
Fixpoint contains (needle s : string) : bool :=
  String.prefix needle s ||
  match s with
  | "" => false
  | String _ s' => contains needle s'
  end.

(** ** pathlib, POSIX flavour *)

Record Path : Type := mkPath { root : string; tail : list string }.

(** [posixpath.splitroot]: no leading slash is a relative path; exactly two
    leading slashes are kept as the root ["//"]; one, or three and more,
    give the root ["/"]. *)
Definition splitroot (p : string) : string * string :=
  match p with
  | String c1 p1 =>
      if negb (Ascii.eqb c1 SLASH) then ("", p)
      else match p1 with
           | String c2 p2 =>
               if negb (Ascii.eqb c2 SLASH) then ("/", p1)
               else if startswith_slash p2 then ("/", p1)
               else ("//", p2)
           | "" => ("/", p1)
           end
  | "" => ("", p)
  end.

Definition keep_part (x : string) : bool :=
  negb (String.eqb x "") && negb (String.eqb x ".").

(** [Path(s)] *)
Definition Path_of (s : string) : Path :=
  let '(r, rel) := splitroot s in
  mkPath r (filter keep_part (split_slash rel)).

(** [str(p)] *)
Definition str (p : Path) : string :=
  let s := root p ++ join "/" (tail p) in
  if String.eqb s "" then "." else s.

(** [posixpath.join(a, b)] *)
Definition posix_join (a b : string) : string :=
  if startswith_slash b then b
  else if String.eqb a "" || endswith_slash a then a ++ b
  else a ++ "/" ++ b.

(** [p / key] *)
Definition truediv (p : Path) (key : string) : Path :=
  Path_of (posix_join (str p) key).

(** [p.parent] *)
Definition parent (p : Path) : Path :=
  match tail p with
  | [] => p
  | _ => mkPath (root p) (removelast (tail p))
  end.

(** ** Text files: the utf-8 codec and universal newlines *)

Definition in_range (lo hi : N) (c : ascii) : bool :=
  (lo <=? N_of_ascii c)%N && (N_of_ascii c <=? hi)%N.

Definition continuation : ascii -> bool := in_range 128 191.

(** Range of the second byte of a three-byte sequence, by lead byte:
    no overlong forms after E0, no surrogates after ED. *)
Definition second_of_three (lead b : ascii) : bool :=
  if in_range 224 224 lead then in_range 160 191 b
  else if in_range 237 237 lead then in_range 128 159 b
  else continuation b.

(** Range of the second byte of a four-byte sequence: no overlong forms
    after F0, nothing above U+10FFFF after F4. *)
Definition second_of_four (lead b : ascii) : bool :=
  if in_range 240 240 lead then in_range 144 191 b
  else if in_range 244 244 lead then in_range 128 143 b
  else continuation b.

(** Whether the strict utf-8 codec accepts the bytes. *)
Fixpoint utf8_valid (s : string) : bool :=
  match s with
  | "" => true
  | String b0 s1 =>
      if in_range 0 127 b0 then utf8_valid s1
      else if in_range 194 223 b0 then
        match s1 with
        | String b1 s2 => continuation b1 && utf8_valid s2
        | _ => false
        end
      else if in_range 224 239 b0 then
        match s1 with
        | String b1 (String b2 s3) =>
            second_of_three b0 b1 && continuation b2 && utf8_valid s3
        | _ => false
        end
      else if in_range 240 244 b0 then
        match s1 with
        | String b1 (String b2 (String b3 s4)) =>
            second_of_four b0 b1 && continuation b2 && continuation b3
            && utf8_valid s4
        | _ => false
        end
      else false
  end.

(** Text mode with [newline=None], which is what [read_text] opens the file
    with: every ["\r\n"] and every remaining ["\r"] is read as ["\n"]. *)
Fixpoint universal_newlines (s : string) : string :=
  match s with
  | "" => ""
  | String c s1 =>
      if Ascii.eqb c CR then
        match s1 with
        | String c' s2 =>
            if Ascii.eqb c' LF then String LF (universal_newlines s2)
            else String LF (universal_newlines s1)
        | "" => String LF ""
        end
      else String c (universal_newlines s1)
  end.

(** ["\r" in s] *)
Fixpoint has_CR (s : string) : bool :=
  match s with
  | "" => false
  | String c s' => Ascii.eqb c CR || has_CR s'
  end.

(** ** The environment of one run *)

(** What a path refers to, as far as [exists()] and [read_text()] can tell. *)
Inductive node : Type :=
| Missing                       (* [exists()] is [False] *)
| RegularFile (bytes : string)  (* a readable file holding these bytes *)
| Unreadable (msg : string).    (* exists, but opening it raises [OSError(msg)]:
                                   a directory, a file without read permission *)

Record environment : Type := mkEnv {
  script_file : string;        (* [str(Path(__file__).resolve())] *)
  fs : Path -> node;           (* the file system *)
  prog : string;               (* [parser.prog] *)
  usage : string;              (* [parser.format_usage()] *)
  codec_error : string -> string
                               (* [str(e)] of the [UnicodeDecodeError] that the
                                  codec raises on the given bytes *)
}.

Inductive exn : Type :=
| FileNotFoundError (msg : string)
| ValueError (msg : string)
| UnicodeDecodeError (msg : string)
| OSError (msg : string)
| SystemExit (code : Z).

(** [str(e)] *)
Definition exn_str (e : exn) : string :=
  match e with
  | FileNotFoundError m | ValueError m | UnicodeDecodeError m | OSError m => m
  | SystemExit _ => ""
  end.

(** [isinstance(e, Exception)]: [SystemExit] derives from [BaseException]. *)
Definition is_Exception (e : exn) : bool :=
  match e with
  | SystemExit _ => false
  | _ => true
  end.

Inductive fs_call : Type :=
| CallExists (p : Path)
| CallReadText (p : Path).

Record world : Type := mkWorld {
  stdout : string;
  stderr : string;
  calls : list fs_call
}.

Definition world0 : world := mkWorld "" "" [].

(** ** Computations: a result or an exception, and the world reached *)

Definition M (A : Type) : Type := world -> (exn + A) * world.

Definition ret {A} (a : A) : M A := fun w => (inr a, w).

Definition raise {A} (e : exn) : M A := fun w => (inl e, w).

Definition bind {A B} (m : M A) (k : A -> M B) : M B :=
  fun w =>
    match m w with
    | (inr a, w') => k a w'
    | (inl e, w') => (inl e, w')
    end.

(** [try: m  except Exception as e: h e] *)
Definition try_except {A} (m : M A) (h : exn -> M A) : M A :=
  fun w =>
    match m w with
    | (inl e, w') => if is_Exception e then h e w' else (inl e, w')
    | r => r
    end.

Declare Scope py_scope.
Delimit Scope py_scope with py.
Notation "x <- m ;; k" := (bind m (fun x => k))
  (at level 61, m at next level, right associativity) : py_scope.
Notation "m ;; k" := (bind m (fun _ => k))
  (at level 61, right associativity) : py_scope.
Open Scope py_scope.

(** [print(s)] and [print(s, file=sys.stderr)] *)
Definition print (s : string) : M unit :=
  fun w => (inr tt, mkWorld (stdout w ++ s ++ nl) (stderr w) (calls w)).

Definition print_stderr (s : string) : M unit :=
  fun w => (inr tt, mkWorld (stdout w) (stderr w ++ s ++ nl) (calls w)).

Definition write_stderr (s : string) : M unit :=
  fun w => (inr tt, mkWorld (stdout w) (stderr w ++ s) (calls w)).

Definition log_call (c : fs_call) : M unit :=
  fun w => (inr tt, mkWorld (stdout w) (stderr w) (calls w ++ [c])).

(** [repr(s)], for a string without quotes, backslashes or control
    characters. *)
Definition repr (s : string) : string := "'" ++ s ++ "'".

(** [p.exists()] *)
Definition exists_ (env : environment) (p : Path) : M bool :=
  log_call (CallExists p) ;;
  ret (match fs env p with Missing => false | _ => true end).

(** [p.read_text(encoding="utf-8")] *)
Definition read_text (env : environment) (p : Path) : M string :=
  log_call (CallReadText p) ;;
  match fs env p with
  | Missing =>
      raise (FileNotFoundError
               ("[Errno 2] No such file or directory: " ++ repr (str p)))
  | Unreadable msg => raise (OSError msg)
  | RegularFile bytes =>
      if utf8_valid bytes then ret (universal_newlines bytes)
      else raise (UnicodeDecodeError (codec_error env bytes))
  end.

(** [sys.exit(code)] *)
Definition sys_exit {A} (code : Z) : M A := raise (SystemExit code).

(** [parser.error(message)]: the usage line and the message on the error
    stream, then exit status 2. *)
Definition parser_error {A} (env : environment) (message : string) : M A :=
  write_stderr (usage env) ;;
  write_stderr (prog env ++ ": error: " ++ message ++ nl) ;;
  sys_exit 2.

(** ** The script *)

(** [ROOT = Path(__file__).resolve().parent.parent] *)
Definition ROOT (env : environment) : Path :=
  parent (parent (Path_of (script_file env))).

Definition META_HEADER_lines : list string :=
  [ "Ingest and understand the Product Requirement Prompt (PRP) below in detail.";
    "";
    "    # WORKFLOW GUIDANCE:";
    "";
    "    ## Planning Phase";
    "    - Think hard before you code. Create a comprehensive plan addressing all requirements.";
    "    - Break down complex tasks into smaller, manageable steps.";
    "    - Use the TodoWrite tool to create and track your implementation plan.";
    "    - Identify implementation patterns from existing code to follow.";
    "";
    "    ## Implementation Phase";
    "    - Follow code conventions and patterns found in existing files.";
    "    - Implement one component at a time and verify it works correctly.";
    "    - Write clear, maintainable code with appropriate comments.";
    "    - Consider error handling, edge cases, and potential security issues.";
    "    - Use type hints to ensure type safety.";
    "";
    "    ## Validation Phase";
    "    - Run all validation commands specified in the PRP.";
    "    - Test the implementation thoroughly.";
    "    - Ensure all requirements are met before considering the task complete.";
    "    - Fix any issues found during validation.";
    "";
    "    ---";
    "";
    "    Now, implement the PRP below:";
    "";
    "    " ].

(** The triple-quoted literal, line by line. *)
Definition META_HEADER : string := join nl META_HEADER_lines.

Definition load_prp_content (env : environment) (prp_path : Path) : M string :=
  present <- exists_ env prp_path ;;
  if negb present then
    raise (FileNotFoundError ("PRP file not found: " ++ str prp_path))
  else
    prp_content <- read_text env prp_path ;;
    let prompt := META_HEADER ++ prp_content in
    ret prompt.

Definition run_cursor_model (prompt : string) (interactive : bool) : M unit :=
  if interactive then
    print "=== PRP LOADED FOR CURSOR ===" ;;
    print prompt ;;
    print (nl ++ "=== INSTRUCTIONS ===") ;;
    print "1. Copy the PRP content above" ;;
    print "2. Paste it into Cursor" ;;
    print "3. Follow the workflow guidance to implement the PRP" ;;
    print "4. Use the validation commands to verify your implementation"
  else
    print prompt.

(** Truth value of a [str | None]: [None] and the empty string are false. *)
Definition truthy (a : option string) : bool :=
  match a with
  | None => false
  | Some s => negb (String.eqb s "")
  end.

(** The string held by an argument that passed the truth test. *)
Definition the (a : option string) : string :=
  match a with
  | Some s => s
  | None => ""
  end.

Definition resolve_prp_path (env : environment)
    (prp_arg prp_path_arg : option string) : M Path :=
  if truthy prp_path_arg then
    ret (Path_of (the prp_path_arg))
  else if truthy prp_arg then
    ret (truediv (ROOT env) (the prp_arg ++ ".md"))
  else
    raise (ValueError "Must provide either --prp or --prp-path").

(** What [parser.parse_args()] returns: [--prp] and [--prp-path] default to
    [None], [--interactive] is a [store_true] flag. *)
Record Namespace : Type := mkArgs {
  prp : option string;
  prp_path : option string;
  interactive : bool
}.

Definition main (env : environment) (args : Namespace) : M unit :=
  (if negb (truthy (prp args)) && negb (truthy (prp_path args)) then
     parser_error env "Must provide either --prp or --prp-path"
   else ret tt) ;;
  try_except
    (prp_path <- resolve_prp_path env (prp args) (prp_path args) ;;
     prompt <- load_prp_content env prp_path ;;
     run_cursor_model prompt (interactive args))
    (fun e =>
       print_stderr ("Error: " ++ exn_str e) ;;
       sys_exit 1).

(** ** One run of the process *)

Record outcome : Type := mkOutcome {
  exit_status : Z;
  final : world
}.

(** [if __name__ == "__main__": main()], from a fresh process.  An exception
    that is not [SystemExit] and reaches the top level ends the process with
    status 1; [main_never_leaks] shows that [main] lets none through. *)
Definition run_script (env : environment) (args : Namespace) : outcome :=
  match main env args world0 with
  | (inr _, w) => mkOutcome 0 w
  | (inl (SystemExit code), w) => mkOutcome code w
  | (inl _, w) => mkOutcome 1 w
  end.

(** The text each mode puts around the prompt. *)
Definition banner_before : string :=
  "=== PRP LOADED FOR CURSOR ===" ++ nl.

Definition instruction_list : list string :=
  [ "1. Copy the PRP content above";
    "2. Paste it into Cursor";
    "3. Follow the workflow guidance to implement the PRP";
    "4. Use the validation commands to verify your implementation" ].

Definition banner_after : string :=
  nl ++ nl ++ "=== INSTRUCTIONS ===" ++ nl ++ join nl instruction_list ++ nl.

Definition presentation (interactive : bool) (prompt : string) : string :=
  if interactive then banner_before ++ prompt ++ banner_after
  else prompt ++ nl.

(** ** Vocabulary of the statements *)

(** A component is not empty and holds no separator. *)
Definition part_ok (x : string) : Prop := x <> "" /\ no_slash x = true.

(** The world after more file-system calls, and after more output. *)
Definition add_calls (w : world) (l : list fs_call) : world :=
  mkWorld (stdout w) (stderr w) (calls w ++ l).

Definition add_stdout (w : world) (s : string) : world :=
  mkWorld (stdout w ++ s) (stderr w) (calls w).

(** What [parser.error] leaves on the error stream. *)
Definition usage_error_text (env : environment) : string :=
  usage env ++ prog env ++ ": error: Must provide either --prp or --prp-path" ++ nl.

(** The path a run works on, when one of the two arguments is present. *)
Definition resolved (env : environment) (args : Namespace) : Path :=
  if truthy (prp_path args) then Path_of (the (prp_path args))
  else truediv (ROOT env) (the (prp args) ++ ".md").

(** A component as [Path] keeps it: not empty, no separator, not ["."]. *)
Definition part_norm (x : string) : Prop :=
  x <> "" /\ no_slash x = true /\ x <> ".".

(** The three roots [splitroot] can return. *)
Definition root_ok (r : string) : Prop := r = "" \/ r = "/" \/ r = "//".

(** The paths that [Path(...)] and [parent] build. *)
Definition well_formed (p : Path) : Prop :=
  root_ok (root p) /\ Forall part_norm (tail p).


(** ** Standard output that can refuse a write *)



















(** ** Sample environments *)

(** A checkout under [/repo]: a plain PRP, one with DOS line ends, and one
    saved as Latin-1 (a lone byte E9, which is not UTF-8). *)
Definition sample_fs (p : Path) : node :=
  if String.eqb (str p) "/repo/PRPs/test.md" then RegularFile "Build a widget."
  else if String.eqb (str p) "/repo/PRPs/dos.md" then
    RegularFile ("a" ++ String CR (String LF "b"))
  else if String.eqb (str p) "/repo/PRPs/latin1.md" then
    RegularFile (String (Ascii.ascii_of_nat 233) "")
  else if String.eqb (str p) "/repo/PRPs" then
    Unreadable "[Errno 21] Is a directory: '/repo/PRPs'"
  else Missing.

Definition sample_env : environment :=
  mkEnv "/repo/PRPs/scripts/prp_runner.py" sample_fs "prp_runner.py"
    ("usage: prp_runner.py [-h] [--prp PRP] [--prp-path PRP_PATH] [--interactive]" ++ nl)
    (fun _ => "'utf-8' codec can't decode byte 0xe9 in position 0: unexpected end of data").


Definition test_md : Path := mkPath "/" ["repo"; "PRPs"; "test.md"].
Definition dos_md : Path := mkPath "/" ["repo"; "PRPs"; "dos.md"].
Definition latin1_md : Path := mkPath "/" ["repo"; "PRPs"; "latin1.md"].

(** The script installed directly under a top-level directory, so that
    [ROOT] is ["/"]. *)
Definition shallow_env : environment :=
  mkEnv "/scripts/prp_runner.py" (fun _ => Missing) "prp_runner.py" "" (fun _ => "").

(** * Properties *)

(** ** Strings *)

Lemma append_assoc (a b c : string) : (a ++ b) ++ c = a ++ (b ++ c).
Proof.
  induction a as [|x a IH]; simpl; [reflexivity|]. now rewrite IH.
Qed.

Lemma append_nil_r (a : string) : a ++ "" = a.
Proof.
  induction a as [|x a IH]; simpl; [reflexivity|]. now rewrite IH.
Qed.

Lemma append_eq_nil (a b : string) : a ++ b = "" -> a = "" /\ b = "".
Proof.
  destruct a; simpl; [auto | discriminate].
Qed.

Lemma prefix_append (a b : string) : String.prefix a (a ++ b) = true.
Proof.
  induction a as [|x a IH]; simpl.
  - now destruct b.
  - destruct (ascii_dec x x) as [_|n]; [exact IH | now elim n].
Qed.

Lemma contains_prefix (x s : string) :
  String.prefix x s = true -> contains x s = true.
Proof.
  intros H. destruct s; cbn [contains]; rewrite H; reflexivity.
Qed.

Lemma contains_skip (x a s : string) :
  contains x s = true -> contains x (a ++ s) = true.
Proof.
  intros H. induction a as [|c a IH]; [exact H|].
  cbn [append contains]. rewrite IH. apply orb_true_r.
Qed.

(** A string occurs in whatever is written around it. *)
Lemma contains_middle (a x b : string) : contains x (a ++ x ++ b) = true.
Proof.
  apply contains_skip, contains_prefix, prefix_append.
Qed.

Lemma endswith_slash_app (a b : string) :
  b <> "" -> endswith_slash (a ++ b) = endswith_slash b.
Proof.
  intros Hb. induction a as [|c a IH]; simpl; [reflexivity|].
  rewrite IH. destruct (a ++ b) eqn:E; [|reflexivity].
  apply append_eq_nil in E. now destruct E.
Qed.

Lemma no_slash_endswith (s : string) :
  no_slash s = true -> endswith_slash s = false.
Proof.
  induction s as [|c s IH]; simpl; [reflexivity|].
  intros H. apply andb_true_iff in H. destruct H as [Hc Hs].
  destruct s; [now apply negb_true_iff in Hc | auto].
Qed.

Lemma startswith_slash_app (k b : string) :
  k <> "" -> startswith_slash (k ++ b) = startswith_slash k.
Proof.
  destruct k; [congruence | reflexivity].
Qed.

Lemma universal_newlines_no_CR (s : string) :
  has_CR s = false -> universal_newlines s = s.
Proof.
  induction s as [|c s IH]; simpl; [reflexivity|].
  intros H. apply orb_false_iff in H. destruct H as [Hc Hs].
  rewrite Hc. now rewrite IH.
Qed.

(** ** Paths are well formed *)

Lemma split_slash_no_slash (s : string) :
  Forall (fun x => no_slash x = true) (split_slash s).
Proof.
  induction s as [|c s IH]; simpl.
  - repeat constructor.
  - destruct (Ascii.eqb c SLASH) eqn:E.
    + constructor; [reflexivity | exact IH].
    + destruct (split_slash s) as [|h t].
      * constructor; [simpl; now rewrite E | constructor].
      * inversion IH; subst. constructor; [simpl; now rewrite E | assumption].
Qed.

Lemma Path_of_parts_ok (s : string) : Forall part_ok (tail (Path_of s)).
Proof.
  unfold Path_of. destruct (splitroot s) as [r rel]. simpl.
  apply Forall_forall. intros x Hx. apply filter_In in Hx.
  destruct Hx as [Hin Hk]. split.
  - unfold keep_part in Hk. apply andb_true_iff in Hk. destruct Hk as [Hk _].
    apply negb_true_iff in Hk. now apply String.eqb_neq in Hk.
  - pose proof (split_slash_no_slash rel) as F.
    rewrite Forall_forall in F. now apply F.
Qed.

Lemma In_removelast {A} (l : list A) (x : A) : In x (removelast l) -> In x l.
Proof.
  induction l as [|a l IH]; simpl; [auto|].
  destruct l; simpl in *; [tauto|]. intros [H|H]; auto.
Qed.

Lemma parent_parts_ok (p : Path) :
  Forall part_ok (tail p) -> Forall part_ok (tail (parent p)).
Proof.
  intros F. unfold parent. destruct (tail p) eqn:E; [now rewrite E|].
  simpl tail. rewrite Forall_forall in *. intros x Hx.
  apply F. now apply In_removelast.
Qed.

Lemma ROOT_parts_ok (env : environment) : Forall part_ok (tail (ROOT env)).
Proof.
  unfold ROOT. do 2 apply parent_parts_ok. apply Path_of_parts_ok.
Qed.

Lemma join_parts_nonempty (l : list string) :
  Forall part_ok l -> l <> [] -> join "/" l <> "".
Proof.
  intros F Hl. destruct l as [|x l]; [congruence|].
  inversion F as [|? ? [Hx _] _]; subst.
  destruct l; simpl; [exact Hx|].
  intros E. apply append_eq_nil in E. now destruct E.
Qed.

Lemma join_parts_endswith (l : list string) :
  Forall part_ok l -> endswith_slash (join "/" l) = false.
Proof.
  induction l as [|x l IH]; intros F; [reflexivity|].
  inversion F as [|? ? [Hx Hs] F']; subst.
  destruct l as [|y l]; [now apply no_slash_endswith|].
  change (join "/" (x :: y :: l)) with (x ++ "/" ++ join "/" (y :: l)).
  assert (Hj : join "/" (y :: l) <> "")
    by (apply join_parts_nonempty; [assumption | discriminate]).
  rewrite endswith_slash_app by (simpl; discriminate).
  rewrite endswith_slash_app by assumption.
  now apply IH.
Qed.

(** The text of a path with at least one component is not empty and does
    not end in a separator. *)
Lemma str_no_trailing_slash (p : Path) :
  Forall part_ok (tail p) -> tail p <> [] ->
  str p <> "" /\ endswith_slash (str p) = false.
Proof.
  intros F Hl. unfold str.
  pose proof (join_parts_nonempty _ F Hl) as Hj.
  destruct (String.eqb_spec (root p ++ join "/" (tail p)) "") as [E|E].
  - apply append_eq_nil in E. now destruct E.
  - split; [exact E|].
    rewrite endswith_slash_app by assumption.
    now apply join_parts_endswith.
Qed.

Lemma posix_join_relative (a b : string) :
  a <> "" -> endswith_slash a = false -> startswith_slash b = false ->
  posix_join a b = a ++ "/" ++ b.
Proof.
  intros Ha He Hb. unfold posix_join. rewrite Hb, He.
  apply String.eqb_neq in Ha. now rewrite Ha.
Qed.

(** ** What each function does to the world *)

Lemma load_prp_content_run (env : environment) (p : Path) (w : world) :
  load_prp_content env p w =
  match fs env p with
  | Missing =>
      (inl (FileNotFoundError ("PRP file not found: " ++ str p)),
       add_calls w [CallExists p])
  | Unreadable msg =>
      (inl (OSError msg), add_calls w [CallExists p; CallReadText p])
  | RegularFile bytes =>
      if utf8_valid bytes then
        (inr (META_HEADER ++ universal_newlines bytes),
         add_calls w [CallExists p; CallReadText p])
      else
        (inl (UnicodeDecodeError (codec_error env bytes)),
         add_calls w [CallExists p; CallReadText p])
  end.
Proof.
  unfold load_prp_content, exists_, read_text, bind, log_call, ret, raise, add_calls.
  cbn [stdout stderr calls].
  destruct (fs env p) as [|bytes|msg]; cbn [negb stdout stderr calls].
  - reflexivity.
  - rewrite <- app_assoc. destruct (utf8_valid bytes); reflexivity.
  - rewrite <- app_assoc. reflexivity.
Qed.

Lemma run_cursor_model_run (prompt : string) (i : bool) (w : world) :
  run_cursor_model prompt i w = (inr tt, add_stdout w (presentation i prompt)).
Proof.
  unfold run_cursor_model, presentation, add_stdout, banner_before, banner_after.
  destruct i; unfold bind, print; cbn [stdout stderr calls].
  - do 2 f_equal. cbn [join instruction_list].
    repeat rewrite append_assoc. reflexivity.
  - reflexivity.
Qed.

Lemma resolve_prp_path_run (env : environment) (k pp : option string) (w : world) :
  resolve_prp_path env k pp w =
  if truthy pp then (inr (Path_of (the pp)), w)
  else if truthy k then (inr (truediv (ROOT env) (the k ++ ".md")), w)
  else (inl (ValueError "Must provide either --prp or --prp-path"), w).
Proof.
  unfold resolve_prp_path. destruct (truthy pp), (truthy k); reflexivity.
Qed.

Lemma resolved_correct (env : environment) (args : Namespace) (w : world) (p : Path) :
  fst (resolve_prp_path env (prp args) (prp_path args) w) = inr p ->
  p = resolved env args /\ truthy (prp args) || truthy (prp_path args) = true.
Proof.
  rewrite resolve_prp_path_run. unfold resolved.
  destruct (truthy (prp_path args)), (truthy (prp args)); simpl;
    intros H; inversion H; auto.
Qed.

(** Every run ends in one of five ways. *)
Lemma run_script_cases (env : environment) (args : Namespace) :
  run_script env args =
  if negb (truthy (prp args)) && negb (truthy (prp_path args)) then
    mkOutcome 2 (mkWorld "" (usage_error_text env) [])
  else
    let p := resolved env args in
    match fs env p with
    | Missing =>
        mkOutcome 1
          (mkWorld "" ("Error: PRP file not found: " ++ str p ++ nl)
             [CallExists p])
    | Unreadable msg =>
        mkOutcome 1
          (mkWorld "" ("Error: " ++ msg ++ nl) [CallExists p; CallReadText p])
    | RegularFile bytes =>
        if utf8_valid bytes then
          mkOutcome 0
            (mkWorld
               (presentation (interactive args)
                  (META_HEADER ++ universal_newlines bytes))
               "" [CallExists p; CallReadText p])
        else
          mkOutcome 1
            (mkWorld "" ("Error: " ++ codec_error env bytes ++ nl)
               [CallExists p; CallReadText p])
    end.
Proof.
  unfold run_script, main, resolved.
  destruct (negb (truthy (prp args)) && negb (truthy (prp_path args))) eqn:G.
  - reflexivity.
  - unfold bind at 1. unfold ret at 1. unfold try_except.
    unfold bind at 1. rewrite resolve_prp_path_run.
    assert (T : truthy (prp_path args) = true \/
                (truthy (prp_path args) = false /\ truthy (prp args) = true)).
    { destruct (truthy (prp_path args)), (truthy (prp args));
        simpl in G; auto; discriminate. }
    destruct T as [T | [T1 T2]]; [rewrite T | rewrite T1, T2];
      unfold bind at 1; rewrite load_prp_content_run;
      match goal with |- context [fs env ?q] => destruct (fs env q) as [|bytes|msg] end;
      try destruct (utf8_valid bytes);
      try rewrite run_cursor_model_run; reflexivity.
Qed.

(** [main] ends normally or by [SystemExit], never by another exception. *)
Lemma main_never_leaks (env : environment) (args : Namespace) (w : world) (e : exn) :
  fst (main env args w) = inl e -> is_Exception e = false.
Proof.
  unfold main. unfold bind at 1.
  destruct (negb (truthy (prp args)) && negb (truthy (prp_path args))).
  - simpl. intros H. inversion H. reflexivity.
  - unfold ret at 1. unfold try_except.
    match goal with |- context [match ?m with _ => _ end] => destruct m as [[x|u] w'] end.
    + destruct (is_Exception x) eqn:E.
      * simpl. intros H. inversion H. reflexivity.
      * simpl. intros H. inversion H. subst. exact E.
    + simpl. discriminate.
Qed.

(** ** The content loader *)

(** C1 (as amended).  For an existing file whose bytes [s] are valid UTF-8,
    the Composed Prompt is [META_HEADER] followed by the text read from the
    file, which is [s] with every CR LF and every lone CR turned into LF;
    when [s] holds no CR it is [META_HEADER ++ s] exactly, the empty file
    included.  Loading the file a second time gives the same prompt. *)
Theorem load_prp_content_composes
    (env : environment) (p : Path) (s : string) (w : world) :
  fs env p = RegularFile s ->
  utf8_valid s = true ->
  fst (load_prp_content env p w) = inr (META_HEADER ++ universal_newlines s)
  /\ (has_CR s = false ->
      fst (load_prp_content env p w) = inr (META_HEADER ++ s))
  /\ (s = "" -> fst (load_prp_content env p w) = inr META_HEADER)
  /\ fst (load_prp_content env p (snd (load_prp_content env p w)))
     = fst (load_prp_content env p w).
Proof.
  intros Hfs Hv. rewrite !load_prp_content_run, Hfs, Hv. cbn [fst].
  repeat split.
  - intros Hcr. now rewrite universal_newlines_no_CR.
  - intros ->. cbn [universal_newlines]. now rewrite append_nil_r.
Qed.

Lemma load_prp_content_composes_witness :
  fs sample_env test_md = RegularFile "Build a widget."
  /\ utf8_valid "Build a widget." = true
  /\ fst (load_prp_content sample_env test_md world0)
     = inr (META_HEADER ++ "Build a widget.").
Proof.
  split; [reflexivity|]. split; [reflexivity|].
  apply (load_prp_content_composes sample_env test_md "Build a widget." world0);
    reflexivity.
Defined.

(** C1 as stated fails: a file holding [a CR LF b] is loaded as
    [META_HEADER] followed by [a LF b], and a file holding the single byte
    E9 is not loaded at all. *)
Lemma load_prp_content_raw_bytes_counterexample :
  fs sample_env dos_md = RegularFile ("a" ++ String CR (String LF "b"))
  /\ fst (load_prp_content sample_env dos_md world0)
     = inr (META_HEADER ++ "a" ++ String LF "b")
  /\ fst (load_prp_content sample_env dos_md world0)
     <> inr (META_HEADER ++ "a" ++ String CR (String LF "b"))
  /\ fs sample_env latin1_md = RegularFile (String (Ascii.ascii_of_nat 233) "")
  /\ fst (load_prp_content sample_env latin1_md world0)
     = inl (UnicodeDecodeError
              (codec_error sample_env (String (Ascii.ascii_of_nat 233) ""))).
Proof.
  split; [reflexivity|]. split; [reflexivity|]. split; [|split; reflexivity].
  intros H.
  apply (f_equal (fun r : exn + string =>
                    match r with
                    | inr t => String.eqb t (META_HEADER ++ "a" ++ String LF "b")
                    | inl _ => false
                    end)) in H.
  vm_compute in H. discriminate H.
Qed.

(** ** The argument resolver *)

(** C2 (as amended).  Whatever the feature key, and whether or not one is
    given, a non-empty [--prp-path] value [p] resolves to [Path(p)]. *)
Theorem resolve_prp_path_explicit_wins
    (env : environment) (k : option string) (p : string) (w : world) :
  p <> "" ->
  resolve_prp_path env k (Some p) w = (inr (Path_of p), w).
Proof.
  intros Hp. rewrite resolve_prp_path_run. cbn [truthy the].
  apply String.eqb_neq in Hp. now rewrite Hp.
Qed.

Lemma resolve_prp_path_explicit_wins_witness :
  "docs/plan.md" <> ""
  /\ resolve_prp_path sample_env (Some "test") (Some "docs/plan.md") world0
     = (inr (mkPath "" ["docs"; "plan.md"]), world0).
Proof.
  split; [discriminate|].
  apply (resolve_prp_path_explicit_wins sample_env (Some "test") "docs/plan.md" world0).
  discriminate.
Defined.

(** C2 as stated fails when the [--prp-path] value is the empty string: the
    feature key decides. *)
Lemma resolve_prp_path_empty_path_counterexample :
  resolve_prp_path sample_env (Some "test") (Some "") world0
  = (inr test_md, world0)
  /\ test_md <> Path_of "".
Proof.
  split; [reflexivity | discriminate].
Qed.

(** C3 (as amended).  A non-empty feature key [k] resolves to
    [ROOT / (k ++ ".md")], where [ROOT] is two [parent] steps above the
    script file, whatever [k] looks like.  When moreover [k] does not begin
    with a slash and [ROOT] is not the root directory, this is the path
    that [--prp-path] gives on the text of [ROOT], a slash, [k] and
    [".md"]. *)
Theorem resolve_prp_path_feature_key
    (env : environment) (k : string) (w : world) :
  k <> "" ->
  resolve_prp_path env (Some k) None w
  = (inr (truediv (parent (parent (Path_of (script_file env)))) (k ++ ".md")), w)
  /\ (startswith_slash k = false ->
      tail (ROOT env) <> [] ->
      resolve_prp_path env (Some k) None w
      = resolve_prp_path env None (Some (str (ROOT env) ++ "/" ++ k ++ ".md")) w).
Proof.
  intros Hk. rewrite !resolve_prp_path_run. cbn [truthy the].
  apply String.eqb_neq in Hk. rewrite Hk. cbn [negb]. split; [reflexivity|].
  intros Hrel Hroot.
  destruct (str_no_trailing_slash (ROOT env) (ROOT_parts_ok env) Hroot) as [Hne Hend].
  assert (T : String.eqb (str (ROOT env) ++ "/" ++ k ++ ".md") "" = false).
  { apply String.eqb_neq. intros E. apply append_eq_nil in E. now destruct E. }
  rewrite T. cbn [negb]. unfold truediv.
  rewrite posix_join_relative; auto.
  rewrite startswith_slash_app; [assumption|].
  now apply String.eqb_neq.
Qed.

Lemma resolve_prp_path_feature_key_witness :
  "test" <> ""
  /\ startswith_slash "test" = false
  /\ tail (ROOT sample_env) <> []
  /\ resolve_prp_path sample_env (Some "test") None world0
     = resolve_prp_path sample_env None (Some "/repo/PRPs/test.md") world0.
Proof.
  split; [discriminate|]. split; [reflexivity|]. split; [discriminate|].
  apply (proj2 (resolve_prp_path_feature_key sample_env "test" world0
                  ltac:(discriminate)));
    [reflexivity | discriminate].
Defined.

(** C3 as stated fails in three places: the empty key is refused; a key
    that begins with a slash replaces [ROOT] instead of extending it; and
    when [ROOT] is ["/"] the text ["//k.md"] names a path with the root
    ["//"]. *)
Lemma resolve_prp_path_feature_key_counterexample :
  resolve_prp_path sample_env (Some "") None world0
  = (inl (ValueError "Must provide either --prp or --prp-path"), world0)
  /\ str (ROOT sample_env) = "/repo/PRPs"
  /\ resolve_prp_path sample_env (Some "/tmp/x") None world0
     = (inr (mkPath "/" ["tmp"; "x.md"]), world0)
  /\ resolve_prp_path sample_env (Some "/tmp/x") None world0
     <> resolve_prp_path sample_env None (Some "/repo/PRPs//tmp/x.md") world0
  /\ str (ROOT shallow_env) = "/"
  /\ resolve_prp_path shallow_env (Some "k") None world0
     = (inr (mkPath "/" ["k.md"]), world0)
  /\ resolve_prp_path shallow_env (Some "k") None world0
     <> resolve_prp_path shallow_env None (Some "//k.md") world0.
Proof.
  repeat split; try reflexivity; vm_compute; discriminate.
Qed.

(** ** Whole runs *)

(** C4.  When the resolved path [p] does not exist, the run ends with
    status 1, nothing on standard output, and the error stream holding
    exactly [Error: PRP file not found: ] followed by [p] and a newline; the
    file system was asked once, whether [p] exists, and never again. *)
Theorem run_script_file_not_found
    (env : environment) (args : Namespace) (p : Path) :
  fst (resolve_prp_path env (prp args) (prp_path args) world0) = inr p ->
  fs env p = Missing ->
  run_script env args
  = mkOutcome 1
      (mkWorld "" ("Error: " ++ ("PRP file not found: " ++ str p) ++ nl)
         [CallExists p])
  /\ contains ("PRP file not found: " ++ str p)
       (stderr (final (run_script env args))) = true.
Proof.
  intros Hres Hfs. apply resolved_correct in Hres. destruct Hres as [-> Ht].
  assert (E : run_script env args
              = mkOutcome 1
                  (mkWorld ""
                     ("Error: " ++ ("PRP file not found: " ++ str (resolved env args)) ++ nl)
                     [CallExists (resolved env args)])).
  { rewrite run_script_cases.
    destruct (truthy (prp args)), (truthy (prp_path args));
      try discriminate Ht; cbn [negb andb]; cbv zeta; rewrite Hfs; reflexivity. }
  split; [exact E|]. rewrite E. cbn [final stderr]. apply contains_middle.
Qed.

Lemma run_script_file_not_found_witness :
  fst (resolve_prp_path sample_env (Some "absent") None world0)
  = inr (mkPath "/" ["repo"; "PRPs"; "absent.md"])
  /\ fs sample_env (mkPath "/" ["repo"; "PRPs"; "absent.md"]) = Missing
  /\ exit_status (run_script sample_env (mkArgs (Some "absent") None true)) = 1%Z
  /\ stderr (final (run_script sample_env (mkArgs (Some "absent") None true)))
     = "Error: PRP file not found: /repo/PRPs/absent.md" ++ nl.
Proof.
  split; [reflexivity|]. split; [reflexivity|].
  pose proof (proj1 (run_script_file_not_found sample_env
                       (mkArgs (Some "absent") None true)
                       (mkPath "/" ["repo"; "PRPs"; "absent.md"])
                       eq_refl eq_refl)) as E.
  rewrite E. split; reflexivity.
Defined.

(** C5.  With neither [--prp] nor [--prp-path], the run ends with status 2
    and the usage message on the error stream; nothing is written to
    standard output and no file-system call is made. *)
Theorem run_script_usage_error (env : environment) (i : bool) :
  run_script env (mkArgs None None i)
  = mkOutcome 2
      (mkWorld ""
         (usage env ++ prog env
          ++ ": error: Must provide either --prp or --prp-path" ++ nl)
         []).
Proof.
  rewrite run_script_cases. reflexivity.
Qed.

(** C6.  In headless mode the presenter appends to standard output the
    prompt and one newline, and touches nothing else.  With [test.md] under
    [ROOT] holding [Build a widget.], the run on [--prp test] prints
    [META_HEADER], that sentence and a newline, and ends with status 0. *)
Theorem headless_output :
  (forall (prompt : string) (w : world),
      run_cursor_model prompt false w
      = (inr tt, mkWorld (stdout w ++ prompt ++ nl) (stderr w) (calls w)))
  /\ (forall env : environment,
        fs env (truediv (ROOT env) "test.md") = RegularFile "Build a widget." ->
        run_script env (mkArgs (Some "test") None false)
        = mkOutcome 0
            (mkWorld (META_HEADER ++ "Build a widget." ++ nl) ""
               [CallExists (truediv (ROOT env) "test.md");
                CallReadText (truediv (ROOT env) "test.md")])).
Proof.
  split.
  - intros prompt w. reflexivity.
  - intros env Hfs. rewrite run_script_cases. cbn [prp prp_path truthy negb andb].
    cbv zeta. unfold resolved. cbn [prp prp_path truthy interactive the].
    change ("test" ++ ".md") with "test.md". rewrite Hfs. cbn [utf8_valid].
    vm_compute utf8_valid. cbn [universal_newlines presentation].
    unfold presentation. now rewrite append_assoc.
Qed.

Lemma headless_output_witness :
  fs sample_env (truediv (ROOT sample_env) "test.md") = RegularFile "Build a widget."
  /\ exit_status (run_script sample_env (mkArgs (Some "test") None false)) = 0%Z
  /\ stdout (final (run_script sample_env (mkArgs (Some "test") None false)))
     = META_HEADER ++ "Build a widget." ++ nl.
Proof.
  split; [reflexivity|].
  rewrite (proj2 headless_output sample_env eq_refl). split; reflexivity.
Defined.

(** C7.  In interactive mode the presenter appends to standard output the
    first banner, the prompt, and the closing text, in that order.  The
    banner holds [PRP LOADED FOR CURSOR]; the closing text is the second
    banner and the four numbered instructions; neither mentions the
    prompt, which therefore occurs in the output as one piece. *)
Theorem interactive_output (prompt : string) (w : world) :
  run_cursor_model prompt true w
  = (inr tt,
     mkWorld (stdout w ++ banner_before ++ prompt ++ banner_after)
       (stderr w) (calls w))
  /\ contains prompt (banner_before ++ prompt ++ banner_after) = true
  /\ banner_before = "=== PRP LOADED FOR CURSOR ===" ++ nl
  /\ contains "PRP LOADED FOR CURSOR" banner_before = true
  /\ banner_after
     = nl ++ nl ++ "=== INSTRUCTIONS ===" ++ nl
       ++ "1. Copy the PRP content above" ++ nl
       ++ "2. Paste it into Cursor" ++ nl
       ++ "3. Follow the workflow guidance to implement the PRP" ++ nl
       ++ "4. Use the validation commands to verify your implementation" ++ nl.
Proof.
  split; [apply run_cursor_model_run|].
  split; [apply contains_middle|].
  repeat split; reflexivity.
Qed.


(** ** Runs on a stream that can refuse a write *)












(** C9.  Two runs on the same arguments and the same environment that
    differ only in [--interactive] build the same Composed Prompt: either
    both succeed, make the same file-system calls, and print the headless
    and the interactive presentation of one and the same prompt, or both
    fail in exactly the same way. *)
Theorem mode_flag_only_changes_presentation
    (env : environment) (k pp : option string) :
  let headless := run_script env (mkArgs k pp false) in
  let inter := run_script env (mkArgs k pp true) in
  (exists (p : Path) (prompt : string),
      fst (resolve_prp_path env k pp world0) = inr p
      /\ fst (load_prp_content env p world0) = inr prompt
      /\ headless
         = mkOutcome 0 (mkWorld (prompt ++ nl) "" [CallExists p; CallReadText p])
      /\ inter
         = mkOutcome 0
             (mkWorld (banner_before ++ prompt ++ banner_after) ""
                [CallExists p; CallReadText p]))
  \/ (headless = inter /\ exit_status headless <> 0%Z).
Proof.
  cbv zeta. rewrite !run_script_cases. cbn [prp prp_path interactive].
  destruct (negb (truthy k) && negb (truthy pp)) eqn:G.
  - right. split; [reflexivity | discriminate].
  - cbv zeta. unfold resolved. cbn [prp prp_path].
    assert (R : exists p,
               fst (resolve_prp_path env k pp world0) = inr p
               /\ p = (if truthy pp then Path_of (the pp)
                       else truediv (ROOT env) (the k ++ ".md"))).
    { rewrite resolve_prp_path_run.
      destruct (truthy pp), (truthy k); simpl in G; try discriminate G;
        eexists; split; reflexivity. }
    destruct R as [p [Hres <-]].
    pose proof (load_prp_content_run env p world0) as L.
    destruct (fs env p) as [|bytes|msg].
    + right. split; [reflexivity | discriminate].
    + destruct (utf8_valid bytes).
      * left. exists p, (META_HEADER ++ universal_newlines bytes).
        rewrite L. repeat split; auto.
      * right. split; [reflexivity | discriminate].
    + right. split; [reflexivity | discriminate].
Qed.

(** C10.  An argument counts as given when its value is a non-empty
    string.  With [--prp-path] empty, a non-empty key [k] resolves to
    [ROOT / (k ++ ".md")], as it does alone.  A run with only an empty
    [--prp-path], only an empty [--prp], or both empty, ends as the run
    with no argument at all: status 2, the usage message, no output and no
    file-system call. *)
Theorem empty_string_counts_as_absent (env : environment) :
  (forall (k : string) (w : world),
      k <> "" ->
      resolve_prp_path env (Some k) (Some "") w
      = (inr (truediv (ROOT env) (k ++ ".md")), w)
      /\ resolve_prp_path env (Some k) (Some "") w
         = resolve_prp_path env (Some k) None w)
  /\ (forall i : bool,
        run_script env (mkArgs None (Some "") i) = run_script env (mkArgs None None i)
        /\ run_script env (mkArgs (Some "") None i) = run_script env (mkArgs None None i)
        /\ run_script env (mkArgs (Some "") (Some "") i) = run_script env (mkArgs None None i)
        /\ run_script env (mkArgs None None i)
           = mkOutcome 2 (mkWorld "" (usage_error_text env) [])).
Proof.
  split.
  - intros k w Hk. rewrite !resolve_prp_path_run. cbn [truthy the String.eqb negb].
    apply String.eqb_neq in Hk. rewrite Hk. split; reflexivity.
  - intros i. rewrite !run_script_cases. repeat split; reflexivity.
Qed.

Lemma empty_string_counts_as_absent_witness :
  "test" <> ""
  /\ resolve_prp_path sample_env (Some "test") (Some "") world0
     = (inr test_md, world0).
Proof.
  split; [discriminate|].
  apply (proj1 (proj1 (empty_string_counts_as_absent sample_env) "test" world0
                  ltac:(discriminate))).
Defined.

(** * Further properties of the script *)

(** ** Paths: what [Path(...)] builds, and reading its text back *)

Lemma splitroot_root_ok (s : string) : root_ok (fst (splitroot s)).
Proof.
  unfold splitroot, root_ok. destruct s as [|c1 p1]; [auto|].
  destruct (Ascii.eqb c1 SLASH); cbn [negb fst]; [|auto].
  destruct p1 as [|c2 p2]; [auto|].
  destruct (Ascii.eqb c2 SLASH); cbn [negb fst]; [|auto].
  destruct (startswith_slash p2); cbn [fst]; auto.
Qed.

Lemma Path_of_well_formed (s : string) : well_formed (Path_of s).
Proof.
  unfold well_formed, Path_of.
  pose proof (splitroot_root_ok s) as Hr.
  destruct (splitroot s) as [r rel]. cbn [fst root tail] in *.
  split; [exact Hr|].
  apply Forall_forall. intros x Hx. apply filter_In in Hx.
  destruct Hx as [Hin Hk].
  unfold keep_part in Hk. apply andb_true_iff in Hk. destruct Hk as [H1 H2].
  apply negb_true_iff in H1, H2.
  apply String.eqb_neq in H1. apply String.eqb_neq in H2.
  pose proof (split_slash_no_slash rel) as F. rewrite Forall_forall in F.
  repeat split; auto.
Qed.

Lemma parent_well_formed (p : Path) : well_formed p -> well_formed (parent p).
Proof.
  intros [Hr F]. unfold parent. destruct (tail p) eqn:E.
  - split; [exact Hr | now rewrite E].
  - split; [exact Hr|]. cbn [tail]. rewrite Forall_forall in *.
    intros x Hx. apply F. now apply In_removelast.
Qed.

Lemma ROOT_well_formed (env : environment) : well_formed (ROOT env).
Proof.
  unfold ROOT. do 2 apply parent_well_formed. apply Path_of_well_formed.
Qed.

Lemma part_norm_ok (l : list string) : Forall part_norm l -> Forall part_ok l.
Proof.
  intros F. eapply Forall_impl; [|exact F].
  intros x [H1 [H2 _]]. now split.
Qed.

Lemma split_slash_part (x : string) :
  no_slash x = true -> split_slash x = [x].
Proof.
  induction x as [|c x IH]; [reflexivity|].
  cbn [no_slash split_slash]. intros H. apply andb_true_iff in H.
  destruct H as [Hc Hx]. apply negb_true_iff in Hc. rewrite Hc.
  now rewrite IH.
Qed.

Lemma split_slash_app (x r : string) :
  no_slash x = true ->
  split_slash (x ++ String SLASH r) = x :: split_slash r.
Proof.
  induction x as [|c x IH].
  - intros _. cbn [append split_slash]. now rewrite Ascii.eqb_refl.
  - cbn [no_slash append split_slash]. intros H. apply andb_true_iff in H.
    destruct H as [Hc Hx]. apply negb_true_iff in Hc. rewrite Hc.
    now rewrite IH.
Qed.

Lemma split_slash_join (l : list string) :
  l <> [] -> Forall part_norm l -> split_slash (join "/" l) = l.
Proof.
  induction l as [|x l IH]; [congruence|]. intros _ F.
  inversion F as [|? ? [_ [Hx _]] F']; subst.
  destruct l as [|y l]; [now apply split_slash_part|].
  change (join "/" (x :: y :: l)) with (x ++ String SLASH (join "/" (y :: l))).
  rewrite split_slash_app by assumption.
  rewrite IH; [reflexivity | discriminate | assumption].
Qed.

Lemma filter_keep_part (l : list string) :
  Forall part_norm l -> filter keep_part l = l.
Proof.
  induction 1 as [|x l [H1 [_ H3]] _ IH]; [reflexivity|].
  apply String.eqb_neq in H1. apply String.eqb_neq in H3.
  assert (K : keep_part x = true) by (unfold keep_part; now rewrite H1, H3).
  cbn [filter]. now rewrite K, IH.
Qed.

Lemma no_slash_startswith (x : string) :
  no_slash x = true -> startswith_slash x = false.
Proof.
  destruct x as [|c x]; [reflexivity|]. cbn. intros H.
  apply andb_true_iff in H. destruct H as [Hc _]. now apply negb_true_iff in Hc.
Qed.

Lemma join_startswith (l : list string) :
  Forall part_norm l -> startswith_slash (join "/" l) = false.
Proof.
  intros F. destruct l as [|x l]; [reflexivity|].
  inversion F as [|? ? [H1 [H2 _]] _]; subst.
  destruct l.
  - now apply no_slash_startswith.
  - change (join "/" (x :: s :: l)) with (x ++ "/" ++ join "/" (s :: l)).
    rewrite startswith_slash_app by assumption. now apply no_slash_startswith.
Qed.

Lemma splitroot_rooted (r j : string) :
  root_ok r -> startswith_slash j = false -> splitroot (r ++ j) = (r, j).
Proof.
  intros [-> | [-> | ->]] Hj; cbn [append].
  - destruct j as [|c j]; [reflexivity|]. cbn in Hj. cbn. now rewrite Hj.
  - destruct j as [|c j]; [reflexivity|]. cbn in Hj. cbn. now rewrite Hj.
  - cbn. now rewrite Hj.
Qed.

(** Parsing the text of a root followed by joined components gives them
    back. *)
Lemma Path_of_join (r : string) (l : list string) :
  root_ok r -> Forall part_norm l -> Path_of (r ++ join "/" l) = mkPath r l.
Proof.
  intros Hr F. unfold Path_of.
  rewrite splitroot_rooted by (auto using join_startswith). f_equal.
  destruct l as [|x l]; [reflexivity|].
  rewrite split_slash_join by (auto; discriminate).
  now apply filter_keep_part.
Qed.

Lemma Path_of_str (p : Path) : well_formed p -> Path_of (str p) = p.
Proof.
  destruct p as [r l]. intros [Hr F]. cbn [root tail] in *. unfold str.
  cbn [root tail].
  destruct (String.eqb_spec (r ++ join "/" l) "") as [E|E].
  - apply append_eq_nil in E. destruct E as [-> Ej].
    destruct l as [|x l]; [reflexivity|].
    exfalso. apply (join_parts_nonempty (x :: l)); auto using part_norm_ok.
    discriminate.
  - now apply Path_of_join.
Qed.

Lemma join_snoc (l : list string) (x : string) :
  l <> [] -> join "/" (l ++ [x]) = join "/" l ++ "/" ++ x.
Proof.
  induction l as [|y l IH]; [congruence|]. intros _.
  destruct l as [|z l]; [reflexivity|].
  change (join "/" ((y :: z :: l) ++ [x]))
    with (y ++ "/" ++ join "/" ((z :: l) ++ [x])).
  rewrite IH by discriminate.
  change (join "/" (y :: z :: l)) with (y ++ "/" ++ join "/" (z :: l)).
  rewrite !append_assoc. reflexivity.
Qed.

(** Joining one more component to a path appends it. *)
Lemma truediv_part (p : Path) (x : string) :
  well_formed p -> part_norm x ->
  truediv p x = mkPath (root p) (tail p ++ [x]).
Proof.
  destruct p as [r l]. intros [Hr F] Hx. cbn [root tail] in *.
  assert (Hs : startswith_slash x = false)
    by (destruct Hx as [_ [Hx _]]; now apply no_slash_startswith).
  assert (Fx : Forall part_norm [x]) by (constructor; auto).
  unfold truediv. destruct l as [|y l].
  - cbn [app].
    destruct Hr as [-> | [-> | ->]]; unfold str, posix_join; cbn; rewrite Hs.
    + destruct Hx as [H1 [H2 H3]].
      apply String.eqb_neq in H1. apply String.eqb_neq in H3.
      assert (K : keep_part x = true) by (unfold keep_part; now rewrite H1, H3).
      unfold Path_of. cbn -[keep_part].
      rewrite split_slash_part by assumption. cbn -[keep_part].
      now rewrite K.
    + apply (Path_of_join "/" [x]); [right; now left | assumption].
    + apply (Path_of_join "//" [x]); [right; now right | assumption].
  - destruct (str_no_trailing_slash (mkPath r (y :: l)))
      as [Hne Hend]; [now apply part_norm_ok | discriminate |].
    rewrite posix_join_relative by assumption.
    assert (E : str (mkPath r (y :: l)) = r ++ join "/" (y :: l)).
    { unfold str in *. cbn [root tail] in *.
      destruct (String.eqb_spec (r ++ join "/" (y :: l)) ""); [|reflexivity].
      exfalso. apply append_eq_nil in e. destruct e as [_ e].
      apply (join_parts_nonempty (y :: l)); auto using part_norm_ok. discriminate. }
    rewrite E, append_assoc, <- join_snoc by discriminate.
    apply Path_of_join; [assumption|].
    apply Forall_app. split; assumption.
Qed.

(** ** More string facts *)

Lemma no_slash_app (a b : string) :
  no_slash (a ++ b) = no_slash a && no_slash b.
Proof.
  induction a as [|c a IH]; [reflexivity|].
  cbn [append no_slash]. rewrite IH. apply andb_assoc.
Qed.

Lemma has_CR_app (a b : string) : has_CR (a ++ b) = has_CR a || has_CR b.
Proof.
  induction a as [|c a IH]; [reflexivity|].
  cbn [append has_CR]. rewrite IH. apply orb_assoc.
Qed.

Lemma universal_newlines_clean (s : string) :
  has_CR (universal_newlines s) = false
  /\ forall c, has_CR (universal_newlines (String c s)) = false.
Proof.
  induction s as [|a s [IH1 IH2]].
  - split; [reflexivity|]. intros c. cbn [universal_newlines].
    destruct (Ascii.eqb c CR) eqn:E; cbn [has_CR]; [reflexivity|].
    now rewrite E.
  - split; [apply IH2|]. intros c.
    change (universal_newlines (String c (String a s)))
      with (if Ascii.eqb c CR
            then if Ascii.eqb a LF then String LF (universal_newlines s)
                 else String LF (universal_newlines (String a s))
            else String c (universal_newlines (String a s))).
    destruct (Ascii.eqb c CR) eqn:E.
    + destruct (Ascii.eqb a LF); cbn [has_CR]; [exact IH1 | apply IH2].
    + cbn [has_CR]. rewrite E. apply IH2.
Qed.

Lemma key_file_part (k : string) :
  k <> "" -> no_slash k = true -> part_norm (k ++ ".md").
Proof.
  intros Hk Hs. repeat split.
  - intros E. apply append_eq_nil in E. now destruct E.
  - rewrite no_slash_app, Hs. reflexivity.
  - destruct k as [|c k]; [congruence|]. cbn [append]. intros E.
    inversion E as [[Hc E']]. apply append_eq_nil in E'.
    destruct E' as [_ E']. discriminate E'.
Qed.

Lemma str_nonempty (p : Path) : str p <> "".
Proof.
  unfold str. destruct (String.eqb_spec (root p ++ join "/" (tail p)) "");
    [discriminate | assumption].
Qed.

(** ** Runs, by what the resolved path refers to *)

Lemma run_script_at (env : environment) (args : Namespace) (p : Path) :
  fst (resolve_prp_path env (prp args) (prp_path args) world0) = inr p ->
  run_script env args =
  match fs env p with
  | Missing =>
      mkOutcome 1
        (mkWorld "" ("Error: PRP file not found: " ++ str p ++ nl) [CallExists p])
  | Unreadable msg =>
      mkOutcome 1
        (mkWorld "" ("Error: " ++ msg ++ nl) [CallExists p; CallReadText p])
  | RegularFile bytes =>
      if utf8_valid bytes then
        mkOutcome 0
          (mkWorld
             (presentation (interactive args)
                (META_HEADER ++ universal_newlines bytes))
             "" [CallExists p; CallReadText p])
      else
        mkOutcome 1
          (mkWorld "" ("Error: " ++ codec_error env bytes ++ nl)
             [CallExists p; CallReadText p])
  end.
Proof.
  intros Hres. apply resolved_correct in Hres. destruct Hres as [-> Ht].
  rewrite run_script_cases.
  destruct (truthy (prp args)), (truthy (prp_path args));
    try discriminate Ht; reflexivity.
Qed.

Lemma resolve_prp_path_well_formed
    (env : environment) (k pp : option string) (w : world) (p : Path) :
  fst (resolve_prp_path env k pp w) = inr p -> well_formed p.
Proof.
  rewrite resolve_prp_path_run.
  destruct (truthy pp); [|destruct (truthy k)]; cbn [fst]; intros H;
    inversion H; subst; try apply Path_of_well_formed.
Qed.

(** ** Failures other than a missing file *)

(** X1.  When the resolved path exists but cannot be opened (a directory,
    a file without read permission), the run ends with status 1, the
    operating system's message after [Error: ] on the error stream, and
    nothing on standard output; it asked whether the path exists and tried
    to read it once. *)
Theorem run_script_unreadable
    (env : environment) (args : Namespace) (p : Path) (msg : string) :
  fst (resolve_prp_path env (prp args) (prp_path args) world0) = inr p ->
  fs env p = Unreadable msg ->
  run_script env args
  = mkOutcome 1
      (mkWorld "" ("Error: " ++ msg ++ nl) [CallExists p; CallReadText p]).
Proof.
  intros Hres Hfs. rewrite (run_script_at env args p Hres), Hfs. reflexivity.
Qed.

Lemma run_script_unreadable_witness :
  fst (resolve_prp_path sample_env None (Some "/repo/PRPs") world0)
  = inr (mkPath "/" ["repo"; "PRPs"])
  /\ fs sample_env (mkPath "/" ["repo"; "PRPs"])
     = Unreadable "[Errno 21] Is a directory: '/repo/PRPs'"
  /\ run_script sample_env (mkArgs None (Some "/repo/PRPs") true)
     = mkOutcome 1
         (mkWorld "" ("Error: [Errno 21] Is a directory: '/repo/PRPs'" ++ nl)
            [CallExists (mkPath "/" ["repo"; "PRPs"]);
             CallReadText (mkPath "/" ["repo"; "PRPs"])]).
Proof.
  split; [reflexivity|]. split; [reflexivity|].
  apply (run_script_unreadable sample_env (mkArgs None (Some "/repo/PRPs") true)
           (mkPath "/" ["repo"; "PRPs"])
           "[Errno 21] Is a directory: '/repo/PRPs'"); reflexivity.
Defined.

(** X2.  When the resolved file holds bytes that are not UTF-8, the run
    ends with status 1 and the codec's message after [Error: ]; no part of
    the file and no part of the header reaches standard output. *)
Theorem run_script_not_utf8
    (env : environment) (args : Namespace) (p : Path) (bytes : string) :
  fst (resolve_prp_path env (prp args) (prp_path args) world0) = inr p ->
  fs env p = RegularFile bytes ->
  utf8_valid bytes = false ->
  run_script env args
  = mkOutcome 1
      (mkWorld "" ("Error: " ++ codec_error env bytes ++ nl)
         [CallExists p; CallReadText p]).
Proof.
  intros Hres Hfs Hv.
  rewrite (run_script_at env args p Hres), Hfs, Hv. reflexivity.
Qed.

Lemma run_script_not_utf8_witness :
  fst (resolve_prp_path sample_env (Some "latin1") None world0) = inr latin1_md
  /\ fs sample_env latin1_md = RegularFile (String (Ascii.ascii_of_nat 233) "")
  /\ utf8_valid (String (Ascii.ascii_of_nat 233) "") = false
  /\ exit_status (run_script sample_env (mkArgs (Some "latin1") None false)) = 1%Z
  /\ stdout (final (run_script sample_env (mkArgs (Some "latin1") None false))) = "".
Proof.
  split; [reflexivity|]. split; [reflexivity|]. split; [reflexivity|].
  rewrite (run_script_not_utf8 sample_env (mkArgs (Some "latin1") None false)
             latin1_md (String (Ascii.ascii_of_nat 233) "")
             eq_refl eq_refl eq_refl).
  split; reflexivity.
Defined.



(** X4.  [resolve_prp_path] raises its [ValueError] exactly when both
    arguments are absent or empty, and raises nothing else.  [main] never
    reports that error: on such arguments it has already left through
    [parser.error], with status 2 and the usage message, before the
    resolver is called. *)
Theorem resolver_error_preempted
    (env : environment) (k pp : option string) (w : world) :
  (forall e : exn,
      fst (resolve_prp_path env k pp w) = inl e ->
      e = ValueError "Must provide either --prp or --prp-path"
      /\ truthy k = false /\ truthy pp = false
      /\ forall i : bool,
           run_script env (mkArgs k pp i)
           = mkOutcome 2 (mkWorld "" (usage_error_text env) []))
  /\ (truthy k = false -> truthy pp = false ->
      resolve_prp_path env k pp w
      = (inl (ValueError "Must provide either --prp or --prp-path"), w)).
Proof.
  split.
  - intros e. rewrite resolve_prp_path_run.
    destruct (truthy pp) eqn:T2; [discriminate|].
    destruct (truthy k) eqn:T1; [discriminate|].
    cbn [fst]. intros H. inversion H. repeat split.
    intros i. rewrite run_script_cases. cbn [prp prp_path].
    now rewrite T1, T2.
  - intros T1 T2. now rewrite resolve_prp_path_run, T1, T2.
Qed.

Lemma resolver_error_preempted_witness :
  fst (resolve_prp_path sample_env (Some "") None world0)
  = inl (ValueError "Must provide either --prp or --prp-path")
  /\ exit_status (run_script sample_env (mkArgs (Some "") None true)) = 2%Z.
Proof.
  split; [reflexivity|].
  destruct (proj1 (resolver_error_preempted sample_env (Some "") None world0)
              _ eq_refl) as [_ [_ [_ H]]].
  rewrite (H true). reflexivity.
Defined.

(** ** What a run does not depend on *)

(** X5.  With a non-empty [--prp-path], the whole run is the same whatever
    [--prp] holds and wherever the script is installed: neither the key
    nor [ROOT] is looked at. *)
Theorem explicit_path_run_ignores_key
    (sf1 sf2 : string) (f : Path -> node) (pr us : string)
    (ce : string -> string) (k1 k2 : option string) (p : string) (i : bool) :
  p <> "" ->
  run_script (mkEnv sf1 f pr us ce) (mkArgs k1 (Some p) i)
  = run_script (mkEnv sf2 f pr us ce) (mkArgs k2 (Some p) i).
Proof.
  intros Hp. rewrite !run_script_cases. unfold resolved.
  cbn [prp prp_path interactive truthy the fs codec_error].
  apply String.eqb_neq in Hp. rewrite Hp. cbn [negb andb].
  rewrite !andb_false_r. reflexivity.
Qed.

Lemma explicit_path_run_ignores_key_witness :
  "/repo/PRPs/test.md" <> ""
  /\ run_script sample_env (mkArgs (Some "dos") (Some "/repo/PRPs/test.md") false)
     = run_script
         (mkEnv "/elsewhere/bin/tool.py" sample_fs (prog sample_env)
            (usage sample_env) (codec_error sample_env))
         (mkArgs None (Some "/repo/PRPs/test.md") false).
Proof.
  split; [discriminate|].
  apply (explicit_path_run_ignores_key
           "/repo/PRPs/scripts/prp_runner.py" "/elsewhere/bin/tool.py"
           sample_fs (prog sample_env) (usage sample_env)
           (codec_error sample_env) (Some "dos") None
           "/repo/PRPs/test.md" false).
  discriminate.
Defined.

(** ** The two presentations *)



(** X7.  [load_prp_content] writes nothing to either stream.  It asks
    once whether the path exists and reads it at most once, afterwards;
    it does not try to read a path that does not exist, and it raises
    [FileNotFoundError] with its own message exactly in that case. *)
Theorem load_prp_content_footprint
    (env : environment) (p : Path) (w : world) :
  let w' := snd (load_prp_content env p w) in
  stdout w' = stdout w
  /\ stderr w' = stderr w
  /\ (fs env p = Missing ->
      calls w' = (calls w ++ [CallExists p])%list
      /\ fst (load_prp_content env p w)
         = inl (FileNotFoundError ("PRP file not found: " ++ str p)))
  /\ (fs env p <> Missing ->
      calls w' = (calls w ++ [CallExists p; CallReadText p])%list
      /\ forall m, fst (load_prp_content env p w) <> inl (FileNotFoundError m)).
Proof.
  cbv zeta. rewrite load_prp_content_run.
  destruct (fs env p) as [|bytes|msg].
  - cbn [fst snd add_calls stdout stderr calls].
    split; [reflexivity|]. split; [reflexivity|]. split.
    + intros _. split; reflexivity.
    + intros N. now elim N.
  - destruct (utf8_valid bytes); cbn [fst snd add_calls stdout stderr calls];
      (split; [reflexivity|]); (split; [reflexivity|]);
      (split; [discriminate|]); intros _; (split; [reflexivity|]);
      intros m; discriminate.
  - cbn [fst snd add_calls stdout stderr calls].
    split; [reflexivity|]. split; [reflexivity|]. split; [discriminate|].
    intros _. split; [reflexivity|]. intros m. discriminate.
Qed.

Lemma load_prp_content_footprint_witness :
  fs sample_env test_md <> Missing
  /\ calls (snd (load_prp_content sample_env test_md world0))
     = [CallExists test_md; CallReadText test_md].
Proof.
  split; [discriminate|].
  apply (proj1 (proj2 (proj2 (proj2
           (load_prp_content_footprint sample_env test_md world0)))
           ltac:(discriminate))).
Defined.

(** X8.  A non-empty feature key without a slash names a file directly
    inside [ROOT]: the resolved path has the components of [ROOT] followed
    by the single component [k ++ ".md"], and its parent is [ROOT]. *)
Theorem feature_key_layout (env : environment) (k : string) (w : world) :
  k <> "" ->
  no_slash k = true ->
  resolve_prp_path env (Some k) None w
  = (inr (mkPath (root (ROOT env)) (tail (ROOT env) ++ [k ++ ".md"])), w)
  /\ parent (mkPath (root (ROOT env)) (tail (ROOT env) ++ [k ++ ".md"]))
     = ROOT env.
Proof.
  intros Hk Hs. split.
  - rewrite resolve_prp_path_run. cbn [truthy the].
    apply String.eqb_neq in Hk. rewrite Hk. cbn [negb].
    rewrite truediv_part; [reflexivity | apply ROOT_well_formed |].
    apply key_file_part; [now apply String.eqb_neq | assumption].
  - unfold parent. cbn [root tail].
    destruct (tail (ROOT env) ++ [(k ++ ".md")%string])%list eqn:E.
    + now apply app_eq_nil in E.
    + rewrite <- E, removelast_last. now destruct (ROOT env).
Qed.

Lemma feature_key_layout_witness :
  "test" <> ""
  /\ no_slash "test" = true
  /\ resolve_prp_path sample_env (Some "test") None world0
     = (inr (mkPath "/" ["repo"; "PRPs"; "test.md"]), world0).
Proof.
  split; [discriminate|]. split; [reflexivity|].
  apply (proj1 (feature_key_layout sample_env "test" world0
                  ltac:(discriminate) eq_refl)).
Defined.

(** X9.  The text of a path, read back by [Path(...)], is that path; so
    the path a run works on (the one a not-found message prints) can be
    passed back as [--prp-path], with any [--prp], and the run is the
    same. *)
Theorem printed_path_round_trip :
  (forall s : string, Path_of (str (Path_of s)) = Path_of s)
  /\ (forall (env : environment) (args : Namespace) (p : Path)
             (k : option string),
        fst (resolve_prp_path env (prp args) (prp_path args) world0) = inr p ->
        run_script env (mkArgs k (Some (str p)) (interactive args))
        = run_script env args).
Proof.
  split.
  - intros s. apply Path_of_str, Path_of_well_formed.
  - intros env args p k Hres.
    assert (W : well_formed p)
      by (eapply resolve_prp_path_well_formed; exact Hres).
    assert (R : fst (resolve_prp_path env k (Some (str p)) world0) = inr p).
    { rewrite resolve_prp_path_run. cbn [truthy the].
      pose proof (str_nonempty p) as N. apply String.eqb_neq in N.
      rewrite N. cbn [negb fst]. now rewrite Path_of_str. }
    rewrite (run_script_at env args p Hres).
    rewrite (run_script_at env (mkArgs k (Some (str p)) (interactive args)) p R).
    reflexivity.
Qed.

Lemma printed_path_round_trip_witness :
  fst (resolve_prp_path sample_env (Some "absent") None world0)
  = inr (mkPath "/" ["repo"; "PRPs"; "absent.md"])
  /\ run_script sample_env (mkArgs None (Some "/repo/PRPs/absent.md") true)
     = run_script sample_env (mkArgs (Some "absent") None true).
Proof.
  split; [reflexivity|].
  apply (proj2 printed_path_round_trip sample_env
           (mkArgs (Some "absent") None true)
           (mkPath "/" ["repo"; "PRPs"; "absent.md"]) None eq_refl).
Defined.

(** X10.  What a successful run prints holds no carriage return, in
    either mode, whatever line ends the file uses. *)
Theorem output_has_no_CR (env : environment) (args : Namespace) :
  exit_status (run_script env args) = 0%Z ->
  has_CR (stdout (final (run_script env args))) = false.
Proof.
  rewrite run_script_cases.
  destruct (negb (truthy (prp args)) && negb (truthy (prp_path args)));
    [discriminate|].
  cbv zeta.
  destruct (fs env (resolved env args)) as [|bytes|msg]; try discriminate.
  destruct (utf8_valid bytes); [|discriminate].
  intros _. cbn [final stdout]. unfold presentation.
  pose proof (proj1 (universal_newlines_clean bytes)) as U.
  destruct (interactive args); rewrite !has_CR_app, U; reflexivity.
Qed.

Lemma output_has_no_CR_witness :
  exit_status (run_script sample_env (mkArgs (Some "dos") None true)) = 0%Z
  /\ has_CR (stdout (final (run_script sample_env (mkArgs (Some "dos") None true))))
     = false.
Proof.
  split; [reflexivity|].
  apply (output_has_no_CR sample_env (mkArgs (Some "dos") None true)).
  reflexivity.
Defined.

(** ** [main] called in a process that has already written output *)

